(** * Verification of the business rules and the CSV store of hr-tool (utils.py)

    The module [utils.py] holds the whole logic of the tool:
    [compute_vacation_total], [infer_seniority], and the CSV store
    [load_data] / [save_data] / [append_row].  This file embeds them
    shallowly and proves the properties of the specification.

    Modelling conventions.
    - Python exceptions are the [Err] case of [result]; a call that returns
      normally is [Ok].
    - A Python float is modelled by the rational it denotes ([Q]); NaN and
      infinities are not represented, and the rounding of the intermediate
      float operations is not modelled (the arithmetic is exact).  An int
      keeps its exact value; [float(int)] raises [OverflowError] beyond the
      float range as CPython does.
    - Library functions that are not part of this repository (Python's
      [float()] on strings, pandas' date parser and number/date printers)
      are Section variables: every general theorem holds for all of them.
      Concrete evaluations use the explicit fragments defined below. *)

From Stdlib Require Import ZArith QArith Qround String Ascii List Bool Lia.
Import ListNotations.
Open Scope Z_scope.

(** ** Results and exceptions *)

Inductive exc :=
| ValueError
| TypeError
| OverflowError
| FileNotFoundError
| PermissionError
| EmptyDataError
| ParserError.

Inductive result (A : Type) :=
| Ok (a : A)
| Err (e : exc).
Arguments Ok {A} a.
Arguments Err {A} e.

Definition bind {A B} (m : result A) (k : A -> result B) : result B :=
  match m with
  | Ok a => k a
  | Err e => Err e
  end.

Notation "'let*' x := m 'in' k" := (bind m (fun x => k))
  (at level 200, x name, m at level 100, k at level 200).

(** ** Python values passed to [compute_vacation_total] *)

(** [PObj f] is any other object: [f] is what its [__float__] returns,
    [None] when [float()] rejects it ([None], a list, ...). *)
Inductive pyval :=
| PStr (s : string)
| PInt (z : Z)
| PFloat (q : Q)
| PObj (f : option Q).

(** ** String helpers *)

Definition pct : ascii := "%"%char.

(** [s.endswith("%")] *)
Definition endswith_pct (s : string) : bool :=
  match rev (list_ascii_of_string s) with
  | c :: _ => Ascii.eqb c pct
  | [] => false
  end.

Fixpoint drop_while (p : ascii -> bool) (l : list ascii) : list ascii :=
  match l with
  | c :: l' => if p c then drop_while p l' else l
  | [] => []
  end.

(** [s.strip(chars)]: removes every leading and trailing character of
    [chars]. *)
Definition strip_chars (chars : list ascii) (s : string) : string :=
  let p c := existsb (Ascii.eqb c) chars in
  string_of_list_ascii
    (rev (drop_while p (rev (drop_while p (list_ascii_of_string s))))).

(** ** Python's [float()] *)

Section Float.

(** [float(s)] on a string: [None] when it raises [ValueError]. *)
Variable float_of_str : string -> option Q.

(** Smallest magnitude of an int that [float()] rounds to infinity
    ([2^1024 - 2^970]): it raises [OverflowError] there. *)
Definition int_float_limit : Z := 2 ^ 1024 - 2 ^ 970.

Definition py_float (v : pyval) : result Q :=
  match v with
  | PStr s =>
      match float_of_str s with
      | Some q => Ok q
      | None => Err ValueError
      end
  | PInt z =>
      if Z.abs z <? int_float_limit then Ok (inject_Z z) else Err OverflowError
  | PFloat q => Ok q
  | PObj (Some q) => Ok q
  | PObj None => Err TypeError
  end.

End Float.

(** ** Python's [round] on a float: round half to even *)

Definition round_half_even (x : Q) : Z :=
  let n := Qnum x in
  let d := Zpos (Qden x) in
  let q := n / d in
  let r := n mod d in
  if 2 * r <? d then q
  else if d <? 2 * r then q + 1
  else if Z.even q then q else q + 1.

(** ** [compute_vacation_total] (utils.py, lines 28-42) *)

Section Vacation.

Variable float_of_str : string -> option Q.

(** [isinstance(x, (int, float))] *)
Definition is_int_or_float (v : pyval) : bool :=
  match v with
  | PInt _ | PFloat _ => true
  | _ => false
  end.

(** [x > 1] on an int or a float *)
Definition gt_one (v : pyval) : bool :=
  match v with
  | PInt z => 1 <? z
  | PFloat q => negb (Qle_bool q 1)
  | _ => false
  end.

Definition compute_vacation_total (workload_pct : pyval) : result Z :=
  let* frac :=
    match workload_pct with
    | PStr s =>
        if endswith_pct s then
          let* f := py_float float_of_str (PStr (strip_chars [pct] s)) in
          Ok (f / (100 # 1))%Q
        else py_float float_of_str workload_pct
    | _ =>
        if is_int_or_float workload_pct && gt_one workload_pct then
          let* f := py_float float_of_str workload_pct in
          Ok (f / (100 # 1))%Q
        else py_float float_of_str workload_pct
    end in
  let total := round_half_even ((25 # 1) * frac)%Q in
  Ok total.

End Vacation.

(** ** A concrete fragment of Python's [float()] on strings

    [float_of_decimal_string] accepts the plain decimal literals
    [ws* [+|-] digits [. digits] ws*] (at least one digit, as ["5."] and
    [".5"]), exactly as [float()] reads them.  The exponent, underscore and
    inf/nan spellings that [float()] also accepts are outside the fragment
    (it answers [None] there), so it is used only on strings inside the
    fragment or on strings that [float()] rejects too. *)

Definition is_space (c : ascii) : bool :=
  let n := nat_of_ascii c in
  (n =? 32)%nat || (9 <=? n)%nat && (n <=? 13)%nat.

Definition digit_value (c : ascii) : option Z :=
  let n := nat_of_ascii c in
  if (48 <=? n)%nat && (n <=? 57)%nat then Some (Z.of_nat n - 48) else None.

(** Reads digits into [acc]; returns the value, the number of digits and
    the rest. *)
Fixpoint read_digits (l : list ascii) (acc : Z) (k : nat)
  : Z * nat * list ascii :=
  match l with
  | c :: l' =>
      match digit_value c with
      | Some d => read_digits l' (10 * acc + d) (S k)
      | None => (acc, k, l)
      end
  | [] => (acc, k, [])
  end.

Definition parse_unsigned (l : list ascii) : option Q :=
  let '(ip, ni, rest) := read_digits l 0 0 in
  match rest with
  | [] => if (0 <? ni)%nat then Some (inject_Z ip) else None
  | c :: rest' =>
      if Ascii.eqb c "."%char then
        let '(fp, nf, rest2) := read_digits rest' ip 0 in
        match rest2 with
        | [] =>
            if (0 <? ni + nf)%nat
            then Some (fp # Z.to_pos (10 ^ Z.of_nat nf))%Q
            else None
        | _ => None
        end
      else None
  end.

Definition float_of_decimal_string (s : string) : option Q :=
  let l := rev (drop_while is_space
                 (rev (drop_while is_space (list_ascii_of_string s)))) in
  match l with
  | c :: l' =>
      if Ascii.eqb c "-"%char then option_map Qopp (parse_unsigned l')
      else if Ascii.eqb c "+"%char then parse_unsigned l'
      else parse_unsigned l
  | [] => None
  end.

(** Decimal numeral of a natural number ([str(n)] for [n >= 0]). *)
Fixpoint digits_rev (fuel : nat) (n : Z) : list ascii :=
  match fuel with
  | O => []
  | S fuel' =>
      ascii_of_nat (Z.to_nat (48 + n mod 10))
        :: (if n <? 10 then [] else digits_rev fuel' (n / 10))
  end.

Definition numeral (n : Z) : string :=
  string_of_list_ascii (rev (digits_rev (Z.to_nat (Z.log2 n + 1)) n)).

Definition vacation := compute_vacation_total float_of_decimal_string.

(** ** [infer_seniority] (utils.py, lines 44-66) *)

Inductive seniority := Junior | Mid | Senior | Manager | Director.

(** [x < y] on numbers *)
Definition Qltb (x y : Q) : bool := negb (Qle_bool y x).

(** The decision ladder of lines 58-66. *)
Definition seniority_ladder (age years_at_company : Q) : seniority :=
  if Qltb age (28 # 1) && Qltb years_at_company (3 # 1) then Junior
  else if Qltb age (35 # 1) && Qltb years_at_company (6 # 1) then Mid
  else if Qltb age (45 # 1) && Qltb years_at_company (12 # 1) then Senior
  else if Qltb age (60 # 1) && Qle_bool (8 # 1) years_at_company then Manager
  else Director.

(** The hire date argument: a [datetime.date] (days since 1970-01-01) or a
    string handed to [pd.to_datetime]. *)
Inductive hire_date_arg :=
| HDate (day : Z)
| HStr (s : string).

Definition seconds_per_day : Z := 86400.

Section Seniority.

(** [pd.to_datetime(s)] on a string, in seconds since the epoch; [None]
    when it raises. *)
Variable to_datetime_str : string -> option Z.

Definition to_datetime (h : hire_date_arg) : result Z :=
  match h with
  | HDate d => Ok (d * seconds_per_day)
  | HStr s =>
      match to_datetime_str s with
      | Some t => Ok t
      | None => Err ValueError
      end
  end.

(** [now] is [pd.to_datetime("today")] in seconds since the epoch;
    [Timedelta.days] is the floor of the difference in days. *)
Definition infer_seniority (now : Z) (age : Q) (hire_date : option hire_date_arg)
  : seniority :=
  let years_at_company :=
    match hire_date with
    | Some h =>
        (* try: ... except Exception: years_at_company = 0 *)
        match to_datetime h with
        | Ok t => (inject_Z ((now - t) / seconds_per_day) / (1461 # 4))%Q
        | Err _ => 0%Q
        end
    | None => 0%Q
    end in
  seniority_ladder age years_at_company.

End Seniority.

(** The ladder as the specification words it: the label of the first rule
    that matches, in order, and Director when none does. *)
Definition ladder_rules : list ((Q -> Q -> bool) * seniority) :=
  [ (fun a t => Qltb a (28 # 1) && Qltb t (3 # 1), Junior);
    (fun a t => Qltb a (35 # 1) && Qltb t (6 # 1), Mid);
    (fun a t => Qltb a (45 # 1) && Qltb t (12 # 1), Senior);
    (fun a t => Qltb a (60 # 1) && negb (Qltb t (8 # 1)), Manager) ].

Fixpoint first_match (rules : list ((Q -> Q -> bool) * seniority))
  (age tenure : Q) (default : seniority) : seniority :=
  match rules with
  | (cond, label) :: rest =>
      if cond age tenure then label else first_match rest age tenure default
  | [] => default
  end.

Definition spec_seniority (age tenure : Q) : seniority :=
  first_match ladder_rules age tenure Director.

(** ** Calendar dates: a concrete fragment of pandas' date parser *)

Definition is_leap (y : Z) : bool :=
  (Z.eqb (y mod 4) 0 && negb (Z.eqb (y mod 100) 0)) || Z.eqb (y mod 400) 0.

Definition days_in_month (y m : Z) : Z :=
  if Z.eqb m 2 then (if is_leap y then 29 else 28)
  else if Z.eqb m 4 || Z.eqb m 6 || Z.eqb m 9 || Z.eqb m 11 then 30
  else 31.

(** Days since 1970-01-01 of a proleptic Gregorian date. *)
Definition days_from_civil (y m d : Z) : Z :=
  let y' := if m <=? 2 then y - 1 else y in
  let era := y' / 400 in
  let yoe := y' - era * 400 in
  let mp := (m + 9) mod 12 in
  let doy := (153 * mp + 2) / 5 + d - 1 in
  let doe := yoe * 365 + yoe / 4 - yoe / 100 + doy in
  era * 146097 + doe - 719468.

Definition digits_value (l : list ascii) : option Z :=
  match read_digits l 0 0 with
  | (v, k, []) => if (0 <? k)%nat then Some v else None
  | _ => None
  end.

(** ISO dates [YYYY-MM-DD], as pandas parses them, to days since the
    epoch.  pandas also reads other spellings (times, slashes, month
    names); they are outside the fragment (it answers [None] there), so it
    is used only on ISO dates or on strings pandas rejects too. *)
Definition parse_iso_date (s : string) : option Z :=
  match list_ascii_of_string s with
  | [y1; y2; y3; y4; s1; m1; m2; s2; d1; d2] =>
      if Ascii.eqb s1 "-"%char && Ascii.eqb s2 "-"%char then
        match digits_value [y1; y2; y3; y4], digits_value [m1; m2],
              digits_value [d1; d2] with
        | Some y, Some m, Some d =>
            if (1 <=? m) && (m <=? 12) && (1 <=? d) && (d <=? days_in_month y m)
            then Some (days_from_civil y m d)
            else None
        | _, _, _ => None
        end
      else None
  | _ => None
  end.

Definition iso_to_datetime (s : string) : option Z :=
  option_map (fun d => d * seconds_per_day) (parse_iso_date s).

(** ** The CSV store: [load_data], [save_data], [append_row]
    (utils.py, lines 7-26) *)

(** A cell of the in-memory table: a string, a number, a date (days since
    the epoch) or a missing value. *)
Inductive cell :=
| CStr (s : string)
| CNum (q : Q)
| CDate (day : Z)
| CNaN.

Record frame := mk_frame { columns : list string; rows : list (list cell) }.

(** The [row_dict] argument of [append_row], keys in insertion order. *)
Definition record := list (string * cell).

(** The file [data/swiss_hr_dataset.csv]: missing, unreadable, or its
    lines split into fields (the CSV quoting, which [to_csv] adds and
    [read_csv] removes, is below this level). *)
Inductive file_state :=
| Missing
| Unreadable
| Contents (lines : list (list string)).

Definition hire_col : string := "Hire Date".

(** pandas' default [na_values]. *)
Definition na_values : list string :=
  ([""; "#N/A"; "#N/A N/A"; "#NA"; "-1.#IND"; "-1.#QNAN"; "-NaN"; "-nan";
    "1.#IND"; "1.#QNAN"; "<NA>"; "N/A"; "NA"; "NULL"; "NaN"; "None"; "n/a";
    "nan"; "null"])%string.

Definition is_na (f : string) : bool := existsb (String.eqb f) na_values.

(** Strings [pd.to_datetime] reads as NaT. *)
Definition nat_strings : list string :=
  ([""; "NaT"; "nat"; "NAT"; "nan"; "NaN"; "NAN"])%string.

Section Store.

Variable float_of_str : string -> option Q.
(** pandas' date parser, to days since the epoch *)
Variable parse_date : string -> option Z.
(** [to_csv]'s printing of numbers and dates *)
Variable show_num : Q -> string.
Variable show_date : Z -> string.

Definition is_some {A} (o : option A) : bool :=
  match o with Some _ => true | None => false end.

Definition string_cell (f : string) : cell := if is_na f then CNaN else CStr f.

(** [read_csv]'s conversion of one column: dates for the [parse_dates]
    column when every value parses, numbers when every value is numeric,
    strings otherwise; NA values become NaN. *)
Definition convert_column (name : string) (fields : list string) : list cell :=
  if String.eqb name hire_col then
    if forallb (fun f => is_na f || is_some (parse_date f)) fields then
      map (fun f => if is_na f then CNaN else
                    match parse_date f with Some d => CDate d | None => CNaN end)
        fields
    else map string_cell fields
  else if forallb (fun f => is_na f || is_some (float_of_str f)) fields then
    map (fun f => if is_na f then CNaN else
                  match float_of_str f with Some q => CNum q | None => CNaN end)
      fields
  else map string_cell fields.

(** A line shorter than the header is read with NaN in the missing
    fields. *)
Definition field (j : nat) (line : list string) : string := nth j line ""%string.

Definition read_table (header : list string) (lines : list (list string)) : frame :=
  let cols := map (fun '(j, name) => convert_column name (map (field j) lines))
                (combine (seq 0 (length header)) header) in
  mk_frame header
    (map (fun i => map (fun col => nth i col CNaN) cols) (seq 0 (length lines))).

(** [pd.read_csv(DATA_PATH, parse_dates=["Hire Date"], dayfirst=False)] *)
Definition load_data (fs : file_state) : result frame :=
  match fs with
  | Missing => Err FileNotFoundError
  | Unreadable => Err PermissionError
  | Contents [] => Err EmptyDataError
  | Contents (header :: lines) =>
      if existsb (fun l => length header <? length l)%nat lines then Err ParserError
      else if negb (existsb (String.eqb hire_col) header) then Err ValueError
      else Ok (read_table header lines)
  end.

Definition render (c : cell) : string :=
  match c with
  | CStr s => s
  | CNum q => show_num q
  | CDate d => show_date d
  | CNaN => ""%string
  end.

(** [df.to_csv(DATA_PATH, index=False)] *)
Definition save_data (df : frame) : file_state :=
  Contents (columns df :: map (map render) (rows df)).

(** [pd.to_datetime(...).dt.date] on one value; a number counts
    nanoseconds since the epoch. *)
Definition to_date_cell (c : cell) : result cell :=
  match c with
  | CDate d => Ok (CDate d)
  | CStr s =>
      if existsb (String.eqb s) nat_strings then Ok CNaN
      else match parse_date s with
           | Some d => Ok (CDate d)
           | None => Err ValueError
           end
  | CNum q => Ok (CDate (Qfloor (q / inject_Z (seconds_per_day * 10 ^ 9))))
  | CNaN => Ok CNaN
  end.

Fixpoint convert_hire_values (r : record) : result record :=
  match r with
  | [] => Ok []
  | (k, c) :: r' =>
      let* c' := if String.eqb k hire_col then to_date_cell c else Ok c in
      let* r'' := convert_hire_values r' in
      Ok ((k, c') :: r'')
  end.

Definition record_lookup (r : record) (k : string) : cell :=
  match find (fun kc => String.eqb k (fst kc)) r with
  | Some (_, c) => c
  | None => CNaN
  end.

Definition add_column (cols : list string) (k : string) : list string :=
  if existsb (String.eqb k) cols then cols else cols ++ [k].

(** [pd.concat([df, pd.DataFrame([row_dict])], ignore_index=True)]: the
    columns of [df], then the new keys; NaN where a row lacks a column. *)
Definition concat_row (df : frame) (r : record) : frame :=
  let cols := fold_left add_column (map fst r) (columns df) in
  let pad := repeat CNaN (length cols - length (columns df)) in
  mk_frame cols
    (map (fun row => row ++ pad) (rows df) ++ [map (record_lookup r) cols]).

(** [append_row]: the new state of the file. *)
Definition append_row (fs : file_state) (row_dict : record) : result file_state :=
  let* df := load_data fs in
  let* new_row :=
    if existsb (fun kc => String.eqb (fst kc) hire_col) row_dict
    then convert_hire_values row_dict
    else Ok row_dict in
  Ok (save_data (concat_row df new_row)).

End Store.

(** ** Concrete printers for numbers and dates *)

(** [str(n)] of an int, with its sign. *)
Definition int_numeral (n : Z) : string :=
  if n <? 0 then ("-" ++ numeral (- n))%string else numeral n.

(** A number with a finite decimal expansion as [to_csv] writes it
    (["30"], ["0.8"], ["-2.25"]). *)
Definition show_decimal (q : Q) : string :=
  let q' := Qred q in
  let n := Qnum q' in
  let d := Zpos (Qden q') in
  if d =? 1 then int_numeral n
  else
    let k := match find (fun k => (10 ^ Z.of_nat k) mod d =? 0) (seq 1 40) with
             | Some k => k
             | None => 17%nat
             end in
    let m := Z.abs n * 10 ^ Z.of_nat k / d in
    let ip := m / 10 ^ Z.of_nat k in
    let fp := numeral (m mod 10 ^ Z.of_nat k) in
    let zeros := string_of_list_ascii
                   (repeat "0"%char (k - String.length fp)) in
    ((if Z.ltb n 0 then "-" else "") ++ numeral ip ++ "." ++ zeros ++ fp)%string.

(** The calendar date of a day count (inverse of [days_from_civil]). *)
Definition civil_from_days (days : Z) : Z * Z * Z :=
  let z := days + 719468 in
  let era := z / 146097 in
  let doe := z - era * 146097 in
  let yoe := (doe - doe / 1460 + doe / 36524 - doe / 146096) / 365 in
  let doy := doe - (365 * yoe + yoe / 4 - yoe / 100) in
  let mp := (5 * doy + 2) / 153 in
  let d := doy - (153 * mp + 2) / 5 + 1 in
  let m := if mp <? 10 then mp + 3 else mp - 9 in
  let y := yoe + era * 400 in
  (if m <=? 2 then y + 1 else y, m, d).

Definition pad2 (n : Z) : string :=
  if n <? 10 then ("0" ++ numeral n)%string else numeral n.

(** ISO [YYYY-MM-DD], as [to_csv] writes a [datetime.date]. *)
Definition show_iso_date (days : Z) : string :=
  let '(y, m, d) := civil_from_days days in
  (numeral y ++ "-" ++ pad2 m ++ "-" ++ pad2 d)%string.

Definition hr_load := load_data float_of_decimal_string parse_iso_date.
Definition hr_append :=
  append_row float_of_decimal_string parse_iso_date show_decimal show_iso_date.

(** Noon of day 20000 (2024-10-04), the clock used in the examples. *)
Definition example_now : Z := 20000 * seconds_per_day + 43200.

(** A one-row table and a record whose first name is the empty string. *)
Definition example_file : file_state :=
  Contents [["First Name"; "Age"; "Hire Date"]; ["Ann"; "30"; "2020-01-15"]]%string.

Definition example_record : record :=
  [("First Name", CStr ""); ("Age", CNum 40); ("Hire Date", CDate 18690)]%string.

(** [numeric_value v]: the float an int or float argument converts to;
    [None] for other values and for ints that [float()] cannot convert. *)
Definition numeric_value (v : pyval) : option Q :=
  match v with
  | PInt z => if Z.abs z <? int_float_limit then Some (inject_Z z) else None
  | PFloat q => Some q
  | _ => None
  end.




(** ** The dashboard and the form of app.py *)

(** Rank of a label in the order of the ladder. *)
Definition seniority_rank (s : seniority) : nat :=
  match s with
  | Junior => 0 | Mid => 1 | Senior => 2 | Manager => 3 | Director => 4
  end.

(** The label as [infer_seniority] returns it. *)
Definition seniority_label (s : seniority) : string :=
  match s with
  | Junior => "Junior" | Mid => "Mid" | Senior => "Senior"
  | Manager => "Manager" | Director => "Director"
  end.

(** [workload_options] of the form (app.py, line 113). *)
Definition workload_options : list string :=
  ["60%"; "70%"; "80%"; "90%"; "100%"]%string.

Section App.

Variable float_of_str : string -> option Q.
Variable parse_date : string -> option Z.
Variable show_num : Q -> string.
Variable show_date : Z -> string.
Variable to_datetime_str : string -> option Z.


(** The choice of the "Seniority Level" select box. *)
Inductive seniority_choice :=
| AutoSuggest
| Chosen (s : seniority).

(** The values of the "Add employee" form; [age] and [vacation_taken] come
    from integer number inputs, [hire_date] from a date input (days since
    the epoch). *)
Record employee_form := mk_form {
  first_name : string;
  last_name : string;
  canton : string;
  department : string;
  age : Z;
  workload : string;
  seniority_sel : seniority_choice;
  hire_date : Z;
  vacation_taken : Z
}.

(** [new_row] (app.py, lines 130-141). *)
Definition new_row (f : employee_form) (sen : seniority) (vacation_total : Z)
  : record :=
  [("First Name", CStr (first_name f));
   ("Last Name", CStr (last_name f));
   ("Residence (Canton)", CStr (canton f));
   ("Age", CNum (inject_Z (age f)));
   ("Department", CStr (department f));
   ("Seniority Level", CStr (seniority_label sen));
   ("Workload", CStr (workload f));
   ("Vacation Days Total", CNum (inject_Z vacation_total));
   ("Vacation Days Taken", CNum (inject_Z (vacation_taken f)));
   ("Hire Date", CDate (hire_date f))]%string.

(** What a submission leads to: an exception while the form is drawn
    (from [compute_vacation_total]), the "names are required" message, the
    new state of the file, or the "Failed to append row" message. *)
Inductive submit_outcome :=
| PageError (e : exc)
| NamesRequired
| Added (fs : file_state)
| AppendFailed (e : exc).

(** The form (app.py, lines 106-149) for a submitted form; [now] is the
    clock read by [infer_seniority]. *)
Definition submit_employee (now : Z) (fs : file_state) (f : employee_form)
  : submit_outcome :=
  match compute_vacation_total float_of_str (PStr (workload f)) with
  | Err e => PageError e
  | Ok vacation_total =>
      if String.eqb (first_name f) "" || String.eqb (last_name f) "" then
        NamesRequired
      else
        let sen :=
          match seniority_sel f with
          | AutoSuggest =>
              infer_seniority to_datetime_str now (inject_Z (age f))
                (Some (HDate (hire_date f)))
          | Chosen s => s
          end in
        match append_row float_of_str parse_date show_num show_date fs
                (new_row f sen vacation_total) with
        | Ok fs' => Added fs'
        | Err e => AppendFailed e
        end
  end.

End App.

(** Errors of the dashboard's filters: a missing column ([df[col]]) and a
    comparison of a string or date with a number. *)
Inductive frame_error :=
| KeyError (col : string)
| CompareTypeError.

Definition fbind {A B} (m : frame_error + A) (k : A -> frame_error + B)
  : frame_error + B :=
  match m with
  | inl e => inl e
  | inr a => k a
  end.

(** Position of the first column named [name]. *)
Fixpoint index_of (name : string) (cols : list string) : option nat :=
  match cols with
  | [] => None
  | c :: cols' =>
      if String.eqb c name then Some 0%nat
      else option_map S (index_of name cols')
  end.

(** [df[col] == value] on one cell: only a string equal to [value]. *)
Definition cell_is (value : string) (c : cell) : bool :=
  match c with
  | CStr s => String.eqb s value
  | _ => false
  end.

(** [(df["Age"] >= lo) & (df["Age"] <= hi)] on one cell; NaN compares
    false, a string or a date raises [TypeError]. *)
Definition age_in_range (lo hi : Z) (c : cell) : option bool :=
  match c with
  | CNum a => Some (Qle_bool (inject_Z lo) a && Qle_bool a (inject_Z hi))
  | CNaN => Some false
  | _ => None
  end.

Definition filter_equal (col value : string) (df : frame) : frame_error + frame :=
  match index_of col (columns df) with
  | None => inl (KeyError col)
  | Some j =>
      inr (mk_frame (columns df)
             (filter (fun row => cell_is value (nth j row CNaN)) (rows df)))
  end.

Definition filter_age (lo hi : Z) (df : frame) : frame_error + frame :=
  match index_of "Age"%string (columns df) with
  | None => inl (KeyError "Age"%string)
  | Some j =>
      if forallb (fun row => is_some (age_in_range lo hi (nth j row CNaN))) (rows df)
      then inr (mk_frame (columns df)
                  (filter (fun row =>
                             match age_in_range lo hi (nth j row CNaN) with
                             | Some b => b
                             | None => false
                             end) (rows df)))
      else inl CompareTypeError
  end.

(** The filters of the "Visualizations" tab (app.py, lines 37-42). *)
Definition apply_filters (df : frame) (selected_dept selected_canton : string)
  (lo hi : Z) : frame_error + frame :=
  fbind (if String.eqb selected_dept "All" then inr df
         else filter_equal "Department" selected_dept df) (fun vis1 =>
  fbind (if String.eqb selected_canton "All" then inr vis1
         else filter_equal "Residence (Canton)" selected_canton vis1) (fun vis2 =>
  filter_age lo hi vis2)).


(** Whether [row] has [value] in column [col] of [cols]. *)
Definition column_is (cols : list string) (col value : string) (row : list cell)
  : bool :=
  match index_of col cols with
  | Some j => cell_is value (nth j row CNaN)
  | None => false
  end.

(** Whether [filter_age] keeps [row], the age being in column [j]. *)
Definition age_selected (lo hi : Z) (j : nat) (row : list cell) : bool :=
  match age_in_range lo hi (nth j row CNaN) with
  | Some b => b
  | None => false
  end.

(** A small table of the dashboard: Department, canton and age. *)
Definition example_frame : frame :=
  mk_frame ["Department"; "Residence (Canton)"; "Age"]%string
    [[CStr "IT"; CStr "ZH"; CNum 30]; [CStr "HR"; CStr "ZH"; CNum 40];
     [CStr "IT"; CStr "BE"; CNum 50]; [CStr "IT"; CStr "ZH"; CNaN]].

(** ** Lemmas on [round_half_even] *)





(** ** [compute_vacation_total] on numeric arguments *)

Lemma Qle_bool_inject_one (z : Z) : Qle_bool (inject_Z z) 1 = (z <=? 1).
Proof. unfold Qle_bool; cbn. now rewrite Z.mul_1_r. Qed.

Lemma compute_vacation_total_numeric fos v w :
  numeric_value v = Some w ->
  compute_vacation_total fos v =
  Ok (round_half_even ((25 # 1) * (if Qle_bool w 1 then w else w / (100 # 1)))%Q).
Proof.
  destruct v as [s|z|q|f]; cbn [numeric_value]; try discriminate.
  - destruct (Z.abs z <? int_float_limit) eqn:E; [|discriminate].
    intros H; injection H as <-.
    unfold compute_vacation_total, py_float, is_int_or_float, gt_one.
    rewrite E, Qle_bool_inject_one; cbn [andb bind].
    destruct (1 <? z) eqn:E1; destruct (z <=? 1) eqn:E2; try reflexivity;
      [apply Z.ltb_lt in E1; apply Z.leb_le in E2|
       apply Z.ltb_ge in E1; apply Z.leb_gt in E2]; lia.
  - intros H; injection H as <-.
    unfold compute_vacation_total, py_float, is_int_or_float, gt_one.
    cbn [andb bind]. destruct (Qle_bool q 1); reflexivity.
Qed.

Lemma Qle_bool_false_lt (w : Q) : Qle_bool w 1 = false -> (1 < w)%Q.
Proof.
  intros H. apply Qnot_le_lt. intros Hle. apply Qle_bool_iff in Hle.
  congruence.
Qed.






Lemma Qle_bool_gt_one (w : Q) : (1 < w)%Q -> Qle_bool w 1 = false.
Proof.
  intros H. destruct (Qle_bool w 1) eqn:E; [|reflexivity].
  apply Qle_bool_iff in E. exfalso. exact (Qlt_not_le _ _ H E).
Qed.


Lemma compute_vacation_total_gt_one fos v w :
  numeric_value v = Some w -> (1 < w)%Q ->
  compute_vacation_total fos v =
  Ok (round_half_even ((25 # 1) * (w / (100 # 1)))%Q).
Proof.
  intros Hv Hw. rewrite (compute_vacation_total_numeric fos v w Hv).
  now rewrite (Qle_bool_gt_one w Hw).
Qed.

(** ** Vacation entitlement: the claims *)












(** ** Seniority inference: the claims *)

Lemma days_between (now d : Z) :
  (now - d * seconds_per_day) / seconds_per_day = now / seconds_per_day - d.
Proof.
  replace (now - d * seconds_per_day) with (now + (- d) * seconds_per_day) by lia.
  rewrite Z.div_add by (unfold seconds_per_day; lia). lia.
Qed.

(** C2: the ladder of [infer_seniority] returns the label of the first
    matching rule, in the order Junior, Mid, Senior, Manager, and Director
    when none matches; (25, 0) is Junior, (30, 4) Mid, (40, 10) Senior,
    (50, 9) Manager and (50, 2) Director, also through [infer_seniority]
    with hire dates that many years back. *)
Theorem seniority_ladder_first_match (td : string -> option Z) :
  (forall age tenure, seniority_ladder age tenure = spec_seniority age tenure) /\
  seniority_ladder (25 # 1) 0 = Junior /\
  seniority_ladder (30 # 1) (4 # 1) = Mid /\
  seniority_ladder (40 # 1) (10 # 1) = Senior /\
  seniority_ladder (50 # 1) (9 # 1) = Manager /\
  seniority_ladder (50 # 1) (2 # 1) = Director /\
  infer_seniority td example_now (25 # 1) None = Junior /\
  infer_seniority td example_now (30 # 1) (Some (HDate (20000 - 1461))) = Mid /\
  infer_seniority td example_now (40 # 1) (Some (HDate (20000 - 3653))) = Senior /\
  infer_seniority td example_now (50 # 1) (Some (HDate (20000 - 3288))) = Manager /\
  infer_seniority td example_now (50 # 1) (Some (HDate (20000 - 731))) = Director.
Proof.
  split.
  - intros age tenure.
    unfold spec_seniority, ladder_rules, first_match, seniority_ladder, Qltb.
    rewrite negb_involutive. reflexivity.
  - repeat split; vm_compute; reflexivity.
Qed.


(** C9 (counterexample): the hire date ["not a date"] does not parse, yet
    [infer_seniority] returns a label (Junior at age 25) instead of failing. *)
Lemma infer_seniority_bad_date_label :
  iso_to_datetime "not a date" = None /\
  infer_seniority iso_to_datetime example_now (25 # 1)
    (Some (HStr "not a date")) = Junior.
Proof. split; vm_compute; reflexivity. Qed.

(** C9 (amended): an unparseable hire date is caught by [infer_seniority]
    and counts as tenure 0: the result is the ladder's label at tenure 0,
    the same as without a hire date; no error is raised. *)
Theorem infer_seniority_bad_date_tenure_zero (td : string -> option Z)
  (now : Z) (age : Q) (s : string) (Hs : td s = None) :
  infer_seniority td now age (Some (HStr s)) = seniority_ladder age 0 /\
  infer_seniority td now age (Some (HStr s)) = infer_seniority td now age None.
Proof.
  unfold infer_seniority, to_datetime. rewrite Hs. split; reflexivity.
Qed.

Lemma infer_seniority_bad_date_tenure_zero_witness :
  iso_to_datetime "not a date" = None /\
  infer_seniority iso_to_datetime example_now (50 # 1)
    (Some (HStr "not a date")) = seniority_ladder (50 # 1) 0.
Proof.
  assert (Hs : iso_to_datetime "not a date" = None) by reflexivity.
  split; [exact Hs|].
  apply (infer_seniority_bad_date_tenure_zero iso_to_datetime example_now
           (50 # 1) "not a date" Hs).
Defined.

(** ** The CSV store: lemmas *)

Lemma existsb_eqb_In (k : string) (l : list string) :
  existsb (String.eqb k) l = true <-> In k l.
Proof.
  rewrite existsb_exists. split.
  - intros [x [Hx E]]. apply String.eqb_eq in E. now subst.
  - intros H. exists k. split; [exact H|apply String.eqb_refl].
Qed.

Lemma fold_add_column (ks cols : list string) :
  exists extra, fold_left add_column ks cols = cols ++ extra /\
    (forall k, In k extra <-> In k ks /\ ~ In k cols).
Proof.
  revert cols. induction ks as [|k ks IH]; intros cols; cbn [fold_left].
  - exists []. rewrite app_nil_r. split; [reflexivity|]. cbn. tauto.
  - unfold add_column at 2. destruct (existsb (String.eqb k) cols) eqn:E.
    + apply existsb_eqb_In in E.
      destruct (IH cols) as [extra [Hf Hx]]. exists extra. split; [exact Hf|].
      intros x. rewrite Hx. cbn. split; [tauto|].
      intros [[<-|Hin] Hn]; [contradiction|tauto].
    + destruct (IH (cols ++ [k])) as [extra [Hf Hx]].
      exists (k :: extra). rewrite Hf, <- app_assoc. split; [reflexivity|].
      intros x. cbn. rewrite Hx, in_app_iff. cbn.
      assert (Hk : ~ In k cols) by (rewrite <- existsb_eqb_In; congruence).
      split.
      * intros [<-|[Hin Hn]]; [tauto|tauto].
      * intros [[<-|Hin] Hn]; [left; reflexivity|].
        destruct (String.eqb_spec k x) as [<-|Hne]; [left; reflexivity|].
        right. split; [exact Hin|]. intros [H|[H|[]]]; [contradiction|congruence].
Qed.

Section StoreLemmas.

Variable float_of_str : string -> option Q.
Variable parse_date : string -> option Z.
Variable show_num : Q -> string.
Variable show_date : Z -> string.

Lemma read_table_shape (header : list string) (lines : list (list string)) :
  let df := read_table float_of_str parse_date header lines in
  columns df = header /\ length (rows df) = length lines /\
  (forall row, In row (rows df) -> length row = length header).
Proof.
  cbn. split; [reflexivity|]. split.
  - now rewrite length_map, length_seq.
  - intros row Hrow. apply in_map_iff in Hrow as [i [<- _]].
    rewrite length_map, length_map, length_combine, length_seq. lia.
Qed.

Lemma load_data_shape (fs : file_state) (df : frame) :
  load_data float_of_str parse_date fs = Ok df ->
  In hire_col (columns df) /\
  (forall row, In row (rows df) -> length row = length (columns df)).
Proof.
  unfold load_data.
  destruct fs as [| |[|header lines]]; intros H; try discriminate H.
  destruct (existsb _ lines); [discriminate H|].
  destruct (existsb (String.eqb hire_col) header) eqn:Eh; cbn [negb] in H;
    [|discriminate H].
  injection H as <-.
  destruct (read_table_shape header lines) as [Hc [_ Hr]].
  rewrite Hc. split; [now apply existsb_eqb_In|exact Hr].
Qed.

Lemma convert_hire_values_keys (r r' : record) :
  convert_hire_values parse_date r = Ok r' -> map fst r' = map fst r.
Proof.
  revert r'. induction r as [|[k c] r IH]; intros r'; cbn; intros H.
  - injection H as <-. reflexivity.
  - destruct (if String.eqb k hire_col then to_date_cell parse_date c else Ok c);
      cbn in H; [|discriminate H].
    destruct (convert_hire_values parse_date r) as [r''|]; cbn in H;
      [|discriminate H].
    injection H as <-. cbn. f_equal. now apply IH.
Qed.

(** Writing the concatenated table and reading it back succeeds, with one
    line per row. *)
Lemma load_save_concat (df : frame) (r : record) :
  In hire_col (columns df) ->
  (forall row, In row (rows df) -> length row = length (columns df)) ->
  let F := concat_row df r in
  load_data float_of_str parse_date (save_data show_num show_date F) =
  Ok (read_table float_of_str parse_date (columns F)
        (map (map (render show_num show_date)) (rows F))).
Proof.
  intros Hh Hrows F. unfold save_data, load_data. cbv iota beta.
  destruct (fold_add_column (map fst r) (columns df)) as [extra [Hcols _]].
  assert (Hlen : forall l, In l (map (map (render show_num show_date)) (rows F)) ->
                 length l = length (columns F)).
  { intros l Hl. apply in_map_iff in Hl as [row [<- Hin]].
    rewrite length_map. unfold F, concat_row in *. cbn in *.
    rewrite Hcols in *. apply in_app_or in Hin as [Hin|[<-|[]]].
    - apply in_map_iff in Hin as [row0 [<- Hin0]].
      rewrite length_app, repeat_length, (Hrows row0 Hin0), length_app. lia.
    - now rewrite length_map. }
  destruct (existsb (fun l => length (columns F) <? length l)%nat
              (map (map (render show_num show_date)) (rows F))) eqn:E.
  { apply existsb_exists in E as [l [Hin Hlt]].
    rewrite (Hlen l Hin), Nat.ltb_irrefl in Hlt. discriminate. }
  assert (Hh' : existsb (String.eqb hire_col) (columns F) = true).
  { apply existsb_eqb_In. unfold F, concat_row. cbn. rewrite Hcols.
    apply in_or_app. now left. }
  rewrite Hh'. reflexivity.
Qed.

End StoreLemmas.

(** ** The CSV store: the claims *)




(** C4: [load_data] on a missing file fails with [FileNotFoundError] and on
    an unreadable one with [PermissionError] (both I/O errors); it returns
    no table, empty or partial, in either case. *)
Theorem load_data_missing_file fos pd :
  load_data fos pd Missing = Err FileNotFoundError /\
  load_data fos pd Unreadable = Err PermissionError /\
  (forall df, load_data fos pd Missing <> Ok df /\
              load_data fos pd Unreadable <> Ok df).
Proof.
  split; [reflexivity|]. split; [reflexivity|].
  intros df. split; discriminate.
Qed.

(** ** More of [compute_vacation_total] *)






(** The workloads offered by the form give 15, 18, 20, 22 and 25 days:
    70% (17.5) and 90% (22.5) round to the even neighbour. *)
Theorem vacation_total_form_options :
  map (fun w => vacation (PStr w)) workload_options =
  [Ok 15; Ok 18; Ok 20; Ok 22; Ok 25].
Proof. vm_compute. reflexivity. Qed.

(** A percentage string ["p%"] and the number [p] give the same
    entitlement whenever [p > 1]. *)
Theorem vacation_total_percent_string_as_number fos (s : string) (q : Q)
  (Hs : endswith_pct s = true) (Hq : fos (strip_chars [pct] s) = Some q)
  (Hgt : (1 < q)%Q) :
  compute_vacation_total fos (PStr s) = compute_vacation_total fos (PFloat q).
Proof.
  unfold compute_vacation_total at 1, py_float. rewrite Hs, Hq. cbn [bind].
  symmetry. apply (compute_vacation_total_gt_one fos (PFloat q) q eq_refl Hgt).
Qed.

Lemma vacation_total_percent_string_as_number_witness :
  vacation (PStr "%37.5%") = vacation (PFloat (375 # 10)).
Proof.
  exact (vacation_total_percent_string_as_number float_of_decimal_string
           "%37.5%" (375 # 10) eq_refl ltac:(vm_compute; reflexivity)
           ltac:(vm_compute; reflexivity)).
Defined.

(** ** More of [infer_seniority] *)

Lemma Qltb_true (x y : Q) : Qltb x y = true <-> (x < y)%Q.
Proof.
  unfold Qltb. rewrite negb_true_iff. split.
  - intros H. apply Qnot_le_lt. intros Hle. apply Qle_bool_iff in Hle. congruence.
  - intros H. destruct (Qle_bool y x) eqn:E; [|reflexivity].
    apply Qle_bool_iff in E. exfalso. exact (Qlt_not_le _ _ H E).
Qed.

Lemma Qltb_mono (a1 a2 c : Q) :
  (a1 <= a2)%Q -> Qltb a2 c = true -> Qltb a1 c = true.
Proof.
  rewrite !Qltb_true. intros H1 H2. eapply Qle_lt_trans; eassumption.
Qed.

Lemma Qltb_false_le (x y : Q) : Qltb x y = false -> (y <= x)%Q.
Proof.
  intros H. destruct (Qlt_le_dec x y) as [Hl|Hl]; [|exact Hl].
  apply Qltb_true in Hl. congruence.
Qed.

(** From age 60 on the result is Director, whatever the hire date. *)
Theorem infer_seniority_sixty_director td (now : Z) (age : Q)
  (h : option hire_date_arg) (Hage : (60 # 1 <= age)%Q) :
  infer_seniority td now age h = Director.
Proof.
  unfold infer_seniority, seniority_ladder.
  assert (F : forall c, (c <= 60 # 1)%Q -> Qltb age c = false).
  { intros c Hc. destruct (Qltb age c) eqn:E; [|reflexivity].
    apply Qltb_true in E. exfalso.
    apply (Qlt_not_le _ _ E). eapply Qle_trans; eassumption. }
  rewrite !F by (vm_compute; discriminate). reflexivity.
Qed.

Lemma infer_seniority_sixty_director_witness :
  infer_seniority iso_to_datetime example_now (61 # 1)
    (Some (HStr "2020-01-15")) = Director.
Proof.
  exact (infer_seniority_sixty_director iso_to_datetime example_now (61 # 1)
           (Some (HStr "2020-01-15")) ltac:(vm_compute; discriminate)).
Defined.

Lemma seniority_ladder_short_tenure (age t : Q) :
  (t < 3 # 1)%Q -> seniority_ladder age t = seniority_ladder age 0.
Proof.
  intros Ht. unfold seniority_ladder.
  assert (T3 : Qltb t (3 # 1) = true) by now apply Qltb_true.
  assert (T6 : Qltb t (6 # 1) = true)
    by (apply Qltb_true; eapply Qlt_trans; [exact Ht|reflexivity]).
  assert (T12 : Qltb t (12 # 1) = true)
    by (apply Qltb_true; eapply Qlt_trans; [exact Ht|reflexivity]).
  assert (T8 : Qle_bool (8 # 1) t = false).
  { destruct (Qle_bool (8 # 1) t) eqn:E; [|reflexivity].
    apply Qle_bool_iff in E. exfalso. apply (Qlt_not_le _ _ Ht).
    eapply Qle_trans; [|exact E]. discriminate. }
  rewrite T3, T6, T12, T8. reflexivity.
Qed.

(** A hire date less than three years back (1095 days or fewer, a date in
    the future included) gives the same label as no hire date, and without
    a hire date the label depends on the age alone: Junior below 28, Mid
    below 35, Senior below 45, Director otherwise; Manager never occurs. *)
Theorem infer_seniority_recent_hire td (now : Z) (age : Q) (d : Z)
  (Hd : now / seconds_per_day - d <= 1095) :
  infer_seniority td now age (Some (HDate d)) = infer_seniority td now age None /\
  infer_seniority td now age None =
    (if Qltb age (28 # 1) then Junior
     else if Qltb age (35 # 1) then Mid
     else if Qltb age (45 # 1) then Senior
     else Director).
Proof.
  split.
  - unfold infer_seniority at 1, to_datetime. rewrite days_between.
    apply seniority_ladder_short_tenure.
    unfold Qlt, Qdiv, Qmult, Qinv, inject_Z; cbn [Qnum Qden]. lia.
  - unfold infer_seniority, seniority_ladder.
    change (Qltb 0 (3 # 1)) with true. change (Qltb 0 (6 # 1)) with true.
    change (Qltb 0 (12 # 1)) with true. change (Qle_bool (8 # 1) 0) with false.
    rewrite !andb_true_r, andb_false_r. reflexivity.
Qed.

Lemma infer_seniority_recent_hire_witness :
  infer_seniority iso_to_datetime example_now (30 # 1) (Some (HDate 19000)) = Mid.
Proof.
  destruct (infer_seniority_recent_hire iso_to_datetime example_now (30 # 1) 19000
              ltac:(vm_compute; discriminate)) as [H1 H2].
  rewrite H1, H2. reflexivity.
Defined.

(** At a fixed hire date, an older employee never gets a label lower in
    the ladder's order (Junior, Mid, Senior, Manager, Director). *)
Theorem infer_seniority_mono_age td (now : Z) (age1 age2 : Q)
  (h : option hire_date_arg) (Hle : (age1 <= age2)%Q) :
  (seniority_rank (infer_seniority td now age1 h) <=
   seniority_rank (infer_seniority td now age2 h))%nat.
Proof.
  unfold infer_seniority. generalize (match h with
    | Some h0 => match to_datetime td h0 with
                 | Ok t => (inject_Z ((now - t) / seconds_per_day) / (1461 # 4))%Q
                 | Err _ => 0%Q end
    | None => 0%Q end) as t. intros t.
  unfold seniority_ladder.
  pose proof (Qltb_mono age1 age2 (28 # 1) Hle) as M28.
  pose proof (Qltb_mono age1 age2 (35 # 1) Hle) as M35.
  pose proof (Qltb_mono age1 age2 (45 # 1) Hle) as M45.
  pose proof (Qltb_mono age1 age2 (60 # 1) Hle) as M60.
  destruct (Qltb age2 (28 # 1)) eqn:A28; [rewrite (M28 eq_refl)|];
  destruct (Qltb age2 (35 # 1)) eqn:A35; [rewrite (M35 eq_refl)| |rewrite (M35 eq_refl)|];
  destruct (Qltb age2 (45 # 1)) eqn:A45; try rewrite (M45 eq_refl);
  destruct (Qltb age2 (60 # 1)) eqn:A60; try rewrite (M60 eq_refl);
  destruct (Qltb age1 (28 # 1)), (Qltb age1 (35 # 1)), (Qltb age1 (45 # 1)),
    (Qltb age1 (60 # 1)), (Qltb t (3 # 1)), (Qltb t (6 # 1)), (Qltb t (12 # 1)),
    (Qle_bool (8 # 1) t); cbn; lia.
Qed.

Lemma infer_seniority_mono_age_witness :
  (seniority_rank (infer_seniority iso_to_datetime example_now (27 # 1) None) <=
   seniority_rank (infer_seniority iso_to_datetime example_now (50 # 1) None))%nat.
Proof.
  exact (infer_seniority_mono_age iso_to_datetime example_now (27 # 1) (50 # 1) None
           ltac:(vm_compute; discriminate)).
Defined.

(** ** More of the CSV store *)



(** What a successful [append_row] did: the table it loaded and the
    record, its keys kept, that it concatenated and wrote. *)
Lemma append_row_inv fos pd sn sd (fs fs' : file_state) (r : record) :
  append_row fos pd sn sd fs r = Ok fs' ->
  exists df r', load_data fos pd fs = Ok df /\ map fst r' = map fst r /\
    fs' = save_data sn sd (concat_row df r').
Proof.
  unfold append_row. destruct (load_data fos pd fs) as [df|e]; cbn [bind];
    [|discriminate].
  destruct (existsb (fun kc => String.eqb (fst kc) hire_col) r).
  - destruct (convert_hire_values pd r) as [r'|e] eqn:Ec; cbn [bind]; [|discriminate].
    intros H; injection H as <-. exists df, r'. split; [reflexivity|].
    split; [now apply (convert_hire_values_keys pd)|reflexivity].
  - cbn [bind]. intros H; injection H as <-. exists df, r. repeat split.
Qed.

Lemma append_row_load fos pd sn sd (fs fs' : file_state) (r : record) :
  append_row fos pd sn sd fs r = Ok fs' ->
  exists df df', load_data fos pd fs = Ok df /\ load_data fos pd fs' = Ok df' /\
    length (rows df') = S (length (rows df)) /\
    columns df' = fold_left add_column (map fst r) (columns df).
Proof.
  intros Ha. destruct (append_row_inv fos pd sn sd fs fs' r Ha)
    as [df [r' [Hl [Hk ->]]]].
  destruct (load_data_shape fos pd fs df Hl) as [Hh Hrows].
  pose proof (load_save_concat fos pd sn sd df r' Hh Hrows) as HL. cbv zeta in HL.
  eexists df, _. split; [exact Hl|]. split; [exact HL|].
  destruct (read_table_shape fos pd (columns (concat_row df r'))
              (map (map (render sn sd)) (rows (concat_row df r')))) as [Hc [Hn _]].
  split.
  - rewrite Hn, length_map. unfold concat_row. cbn [rows].
    rewrite length_app, length_map. cbn [length]. lia.
  - rewrite Hc. unfold concat_row. cbn [columns]. now rewrite Hk.
Qed.

Lemma fold_add_column_known (ks cols : list string) :
  (forall k, In k ks -> In k cols) -> fold_left add_column ks cols = cols.
Proof.
  intros Hk. destruct (fold_add_column ks cols) as [[|x extra] [Hf Hx]].
  - now rewrite Hf, app_nil_r.
  - exfalso. destruct (proj1 (Hx x) (or_introl eq_refl)) as [Hin Hn].
    exact (Hn (Hk x Hin)).
Qed.



(** A table that [load_data] returned can be saved with [save_data] and
    loaded again: the same columns and the same number of rows. *)
Theorem load_save_reload fos pd sn sd (fs : file_state) (df : frame)
  (Hl : load_data fos pd fs = Ok df) :
  exists df', load_data fos pd (save_data sn sd df) = Ok df' /\
    columns df' = columns df /\ length (rows df') = length (rows df).
Proof.
  destruct (load_data_shape fos pd fs df Hl) as [Hh Hrows].
  unfold save_data, load_data. cbv iota beta.
  destruct (existsb (fun l => length (columns df) <? length l)%nat
              (map (map (render sn sd)) (rows df))) eqn:E.
  { apply existsb_exists in E as [l [Hin Hlt]].
    apply in_map_iff in Hin as [row [<- Hin]].
    rewrite length_map, (Hrows row Hin), Nat.ltb_irrefl in Hlt. discriminate. }
  apply existsb_eqb_In in Hh. rewrite Hh. cbn [negb].
  eexists. split; [reflexivity|].
  destruct (read_table_shape fos pd (columns df) (map (map (render sn sd)) (rows df)))
    as [Hc [Hn _]].
  split; [exact Hc|]. now rewrite Hn, length_map.
Qed.

Lemma load_save_reload_witness :
  exists df', hr_load (save_data show_decimal show_iso_date
                         (mk_frame ["First Name"; "Age"; "Hire Date"]%string
                            [[CStr "Ann"; CNum 30; CDate 18276]])) = Ok df' /\
    columns df' = ["First Name"; "Age"; "Hire Date"]%string /\
    length (rows df') = 1%nat.
Proof.
  assert (Hl : hr_load example_file =
    Ok (mk_frame ["First Name"; "Age"; "Hire Date"]%string
          [[CStr "Ann"; CNum 30; CDate 18276]])) by (vm_compute; reflexivity).
  unfold hr_load in *.
  exact (load_save_reload float_of_decimal_string parse_iso_date show_decimal
           show_iso_date _ _ Hl).
Defined.





(** When every key of the record is already a column, a successful
    append leaves the columns as they were and adds one row. *)
Theorem append_row_known_keys fos pd sn sd (fs fs' : file_state) (df : frame)
  (r : record)
  (Hl : load_data fos pd fs = Ok df)
  (Hk : forall k, In k (map fst r) -> In k (columns df))
  (Ha : append_row fos pd sn sd fs r = Ok fs') :
  exists df', load_data fos pd fs' = Ok df' /\ columns df' = columns df /\
    length (rows df') = S (length (rows df)).
Proof.
  destruct (append_row_load fos pd sn sd fs fs' r Ha) as [df0 [df' [Hl0 [Hl' [Hn Hc]]]]].
  rewrite Hl in Hl0. injection Hl0 as <-.
  exists df'. split; [exact Hl'|]. split; [|exact Hn].
  rewrite Hc. now apply fold_add_column_known.
Qed.

Lemma append_row_known_keys_witness :
  exists df', hr_load (Contents [["First Name"; "Age"; "Hire Date"];
                  ["Ann"; "30"; "2020-01-15"]; [""; "40"; "2021-03-04"]]%string) = Ok df' /\
    columns df' = ["First Name"; "Age"; "Hire Date"]%string /\
    length (rows df') = 2%nat.
Proof.
  assert (Hl : hr_load example_file =
    Ok (mk_frame ["First Name"; "Age"; "Hire Date"]%string
          [[CStr "Ann"; CNum 30; CDate 18276]])) by (vm_compute; reflexivity).
  assert (Ha : hr_append example_file example_record =
    Ok (Contents [["First Name"; "Age"; "Hire Date"];
                  ["Ann"; "30"; "2020-01-15"]; [""; "40"; "2021-03-04"]]%string))
    by (vm_compute; reflexivity).
  unfold hr_load, hr_append in *.
  exact (append_row_known_keys float_of_decimal_string parse_iso_date show_decimal
           show_iso_date _ _ _ example_record Hl
           ltac:(cbn; intros k Hk; intuition) Ha).
Defined.

(** ** More of app.py: the workload chart and the form *)




Lemma form_option_total (w : string) :
  In w workload_options -> exists n, vacation (PStr w) = Ok n.
Proof.
  intros Hw. repeat destruct Hw as [<-|Hw]; try destruct Hw;
    eexists; vm_compute; reflexivity.
Qed.



(** A form whose first or last name is empty (the workload one of the
    offered options) only shows "First and last name are required."; no
    row is appended. *)
Theorem submit_employee_names_required pd sn sd td (now : Z) (fs : file_state)
  (f : employee_form)
  (Hw : In (workload f) workload_options)
  (Hn : first_name f = ""%string \/ last_name f = ""%string) :
  submit_employee float_of_decimal_string pd sn sd td now fs f = NamesRequired.
Proof.
  destruct (form_option_total (workload f) Hw) as [n Hv]. unfold vacation in Hv.
  unfold submit_employee. rewrite Hv.
  destruct Hn as [->| ->]; [reflexivity|]. now rewrite orb_true_r.
Qed.

Lemma submit_employee_names_required_witness :
  submit_employee float_of_decimal_string parse_iso_date show_decimal show_iso_date
    iso_to_datetime example_now example_file
    (mk_form "Ann" "" "ZH" "IT" 30 "80%" AutoSuggest 19000 0) = NamesRequired.
Proof.
  exact (submit_employee_names_required parse_iso_date show_decimal show_iso_date
           iso_to_datetime example_now example_file
           (mk_form "Ann" "" "ZH" "IT" 30 "80%" AutoSuggest 19000 0)
           ltac:(cbn; tauto) (or_intror eq_refl)).
Defined.



(** ** More of app.py: the dashboard's filters *)

Lemma filter_filter_andb {A} (p q : A -> bool) (l : list A) :
  filter q (filter p l) = filter (fun x => p x && q x) l.
Proof.
  induction l as [|x l IH]; [reflexivity|]. cbn.
  destruct (p x); cbn; [destruct (q x)|]; cbn; now rewrite IH.
Qed.

Lemma select_filter_ok (col value : string) (df vis : frame) :
  (if String.eqb value "All" then inr df else filter_equal col value df) = inr vis ->
  columns vis = columns df /\
  rows vis = filter (fun row => String.eqb value "All" ||
                                column_is (columns df) col value row) (rows df).
Proof.
  destruct (String.eqb value "All") eqn:E.
  - intros H. injection H as <-. split; [reflexivity|].
    cbn [orb]. symmetry. apply filter_true.
  - unfold filter_equal. destruct (index_of col (columns df)) as [j|] eqn:Ej;
      [|discriminate]. intros H. injection H as <-. split; [reflexivity|].
    cbn [rows orb]. unfold column_is. rewrite Ej. reflexivity.
Qed.

Lemma filter_age_ok (lo hi : Z) (df vis : frame) :
  filter_age lo hi df = inr vis ->
  columns vis = columns df /\
  exists ja, index_of "Age"%string (columns df) = Some ja /\
    rows vis = filter (age_selected lo hi ja) (rows df).
Proof.
  unfold filter_age. destruct (index_of "Age"%string (columns df)) as [ja|];
    [|discriminate].
  destruct (forallb _ (rows df)); [|discriminate].
  intros H. injection H as <-. split; [reflexivity|]. exists ja. split; reflexivity.
Qed.

Lemma apply_filters_rows (df vis : frame) (dept canton : string) (lo hi : Z) :
  apply_filters df dept canton lo hi = inr vis ->
  columns vis = columns df /\
  exists ja, index_of "Age"%string (columns df) = Some ja /\
    rows vis = filter (fun row =>
      ((String.eqb dept "All" || column_is (columns df) "Department" dept row) &&
       (String.eqb canton "All" ||
        column_is (columns df) "Residence (Canton)" canton row)) &&
      age_selected lo hi ja row) (rows df).
Proof.
  unfold apply_filters.
  destruct (if String.eqb dept "All" then inr df
            else filter_equal "Department" dept df) as [e|vis1] eqn:E1;
    cbn [fbind]; [discriminate|].
  destruct (if String.eqb canton "All" then inr vis1
            else filter_equal "Residence (Canton)" canton vis1) as [e|vis2] eqn:E2;
    cbn [fbind]; [discriminate|].
  intros H.
  destruct (select_filter_ok _ _ _ _ E1) as [C1 R1].
  destruct (select_filter_ok _ _ _ _ E2) as [C2 R2].
  destruct (filter_age_ok _ _ _ _ H) as [C3 [ja [Hja R3]]].
  rewrite C2, C1 in Hja. rewrite C1 in R2.
  split; [congruence|]. exists ja. split; [exact Hja|].
  rewrite R3, R2, R1, (filter_filter_andb _ _ (rows df)), filter_filter_andb.
  reflexivity.
Qed.

(** When the filters succeed, the table shown keeps the columns and is
    the original rows, in order, that match the department (unless
    "All"), the canton (unless "All") and whose age lies in the range. *)
Theorem apply_filters_conjunction (df vis : frame) (dept canton : string) (lo hi : Z)
  (H : apply_filters df dept canton lo hi = inr vis) :
  columns vis = columns df /\
  exists ja, index_of "Age"%string (columns df) = Some ja /\
    rows vis = filter (fun row =>
      ((String.eqb dept "All" || column_is (columns df) "Department" dept row) &&
       (String.eqb canton "All" ||
        column_is (columns df) "Residence (Canton)" canton row)) &&
      age_selected lo hi ja row) (rows df).
Proof. exact (apply_filters_rows df vis dept canton lo hi H). Qed.

Lemma apply_filters_conjunction_witness :
  columns (mk_frame ["Department"; "Residence (Canton)"; "Age"]%string
             [[CStr "IT"; CStr "ZH"; CNum 30]]) = columns example_frame /\
  exists ja, index_of "Age"%string (columns example_frame) = Some ja /\
    rows (mk_frame ["Department"; "Residence (Canton)"; "Age"]%string
            [[CStr "IT"; CStr "ZH"; CNum 30]]) =
    filter (fun row =>
      ((String.eqb "IT" "All" || column_is (columns example_frame) "Department" "IT" row) &&
       (String.eqb "ZH" "All" ||
        column_is (columns example_frame) "Residence (Canton)" "ZH" row)) &&
      age_selected 20 60 ja row) (rows example_frame).
Proof.
  exact (apply_filters_conjunction example_frame _ "IT" "ZH" 20 60
           ltac:(vm_compute; reflexivity)).
Defined.

(** With "All" departments and cantons and an age range that contains
    every numeric age, the table shown is exactly the rows whose age is a
    number: a row with a missing age is never shown. *)
Theorem apply_filters_all_drops_missing_age (df vis : frame) (lo hi : Z) (ja : nat)
  (Hja : index_of "Age"%string (columns df) = Some ja)
  (Hrange : forall row a, In row (rows df) -> nth ja row CNaN = CNum a ->
            (inject_Z lo <= a <= inject_Z hi)%Q)
  (H : apply_filters df "All" "All" lo hi = inr vis) :
  rows vis = filter (fun row => match nth ja row CNaN with
                                | CNum _ => true
                                | _ => false
                                end) (rows df).
Proof.
  destruct (apply_filters_rows df vis "All" "All" lo hi H) as [_ [ja' [Hja' R]]].
  rewrite Hja in Hja'. injection Hja' as <-. rewrite R. cbn [String.eqb orb andb].
  apply filter_ext_in. intros row Hin. unfold age_selected, age_in_range.
  destruct (nth ja row CNaN) as [s|a|d|] eqn:Ea; try reflexivity.
  destruct (Hrange row a Hin Ea) as [B1 B2].
  apply Qle_bool_iff in B1. apply Qle_bool_iff in B2. now rewrite B1, B2.
Qed.

Lemma apply_filters_all_drops_missing_age_witness :
  rows (mk_frame ["Department"; "Residence (Canton)"; "Age"]%string
          [[CStr "IT"; CStr "ZH"; CNum 30]; [CStr "HR"; CStr "ZH"; CNum 40];
           [CStr "IT"; CStr "BE"; CNum 50]]) =
  filter (fun row => match nth 2 row CNaN with
                     | CNum _ => true
                     | _ => false
                     end) (rows example_frame).
Proof.
  exact (apply_filters_all_drops_missing_age example_frame _ 30 50 2
           eq_refl
           ltac:(intros row a Hin Ha; cbn in Hin;
                 repeat destruct Hin as [<-|Hin]; try destruct Hin;
                 cbn in Ha; try discriminate; injection Ha as <-;
                 split; vm_compute; discriminate)
           ltac:(vm_compute; reflexivity)).
Defined.

(** With "All" departments and cantons, a row whose age is a string or a
    date makes the age filter raise [TypeError], whatever the range. *)
Theorem apply_filters_age_type_error (df : frame) (lo hi : Z) (ja : nat)
  (row : list cell)
  (Hja : index_of "Age"%string (columns df) = Some ja)
  (Hin : In row (rows df))
  (Hbad : (exists s, nth ja row CNaN = CStr s) \/ (exists d, nth ja row CNaN = CDate d)) :
  apply_filters df "All" "All" lo hi = inl CompareTypeError.
Proof.
  unfold apply_filters. rewrite !String.eqb_refl. cbn [fbind].
  unfold filter_age. rewrite Hja.
  destruct (forallb _ (rows df)) eqn:E; [|reflexivity].
  exfalso. rewrite forallb_forall in E. specialize (E row Hin). cbv beta in E.
  destruct Hbad as [[s Hs]|[d Hd]]; [rewrite Hs in E|rewrite Hd in E]; discriminate E.
Qed.

Lemma apply_filters_age_type_error_witness :
  apply_filters (mk_frame ["Age"]%string [[CNum 30]; [CStr "forty"]]) "All" "All" 0 100
  = inl CompareTypeError.
Proof.
  exact (apply_filters_age_type_error
           (mk_frame ["Age"]%string [[CNum 30]; [CStr "forty"]]) 0 100 0
           [CStr "forty"] eq_refl ltac:(right; left; reflexivity)
           (or_introl (ex_intro _ "forty"%string eq_refl))).
Defined.
